(** * review_with_glm: the pull-request review script

    A shallow embedding of [.github/scripts/review_with_glm.py]: the three
    functions [get_pr_diff], [ask_glm], [post_comment_to_pr] and the main
    block, over a model of the values [response.json()] returns, of the
    faults Python raises on them, and of the two observable effects of the
    script (HTTP requests and printed lines). *)

From Stdlib Require Import ZArith List String Ascii Bool.
From Stdlib Require Import Floats.SpecFloat.
Import ListNotations.
Local Open Scope list_scope.
Local Open Scope string_scope.
Set Warnings "-register-all".

(** ** Python values

    Strings are kept as their UTF-8 bytes, so that the literals of the
    script read as they do in the source; concatenation and emptiness are
    the same on bytes and on code points. *)

Definition LF : string := String "010"%char EmptyString.

(** What [json()] can return: [None], a bool, an int, a float, a str, a
    list, or a dict with str keys.  A dict is the list of its items in
    insertion order; lookup takes the first item with the key. *)
Inductive json : Type :=
| JNull
| JBool (b : bool)
| JInt (z : Z)
| JFloat (f : spec_float)
| JStr (s : string)
| JArr (l : list json)
| JObj (o : list (string * json)).

(** The exceptions the script can meet; none is caught anywhere. *)
Inductive exn : Type :=
| KeyError (key : json)
| IndexError
| TypeError
| AttributeError
| JSONDecodeError
| RequestException.

Inductive result (A : Type) : Type :=
| Ok (a : A)
| Exn (e : exn).
Arguments Ok {A} a.
Arguments Exn {A} e.

Definition bindR {A B} (r : result A) (k : A -> result B) : result B :=
  match r with
  | Ok a => k a
  | Exn e => Exn e
  end.

Notation "x <~ r ;; k" := (bindR r (fun x => k))
  (at level 61, r at next level, right associativity).

Fixpoint lookup (k : string) (o : list (string * json)) : option json :=
  match o with
  | [] => None
  | (k', v) :: rest => if String.eqb k k' then Some v else lookup k rest
  end.

(** [bool(v)], as [if v:] and [not v] take it. *)
Definition truthy (v : json) : bool :=
  match v with
  | JNull => false
  | JBool b => b
  | JInt z => negb (z =? 0)%Z
  | JFloat (S754_zero _) => false
  | JFloat _ => true
  | JStr s => negb (String.eqb s "")
  | JArr l => match l with [] => false | _ => true end
  | JObj o => match o with [] => false | _ => true end
  end.

(** [v.get(k)]: only a dict has the method; a missing key gives [None]. *)
Definition py_get (v : json) (k : string) : result json :=
  match v with
  | JObj o => match lookup k o with
              | Some x => Ok x
              | None => Ok JNull
              end
  | _ => Exn AttributeError
  end.

(** The code points of a str, each as a one-character str: a byte
    [10xxxxxx] continues the character before it. *)
Definition is_cont (c : ascii) : bool :=
  let n := nat_of_ascii c in ((128 <=? n) && (n <? 192))%nat.

Fixpoint py_chars (s : string) : list string :=
  match s with
  | EmptyString => []
  | String c rest =>
      let chars := py_chars rest in
      match rest, chars with
      | String c' _, hd :: tl =>
          if is_cont c' then String c hd :: tl
          else String c EmptyString :: chars
      | _, _ => String c EmptyString :: chars
      end
  end.

(** [v[k]] for a str key [k]. *)
Definition subscript_str (v : json) (k : string) : result json :=
  match v with
  | JObj o => match lookup k o with
              | Some x => Ok x
              | None => Exn (KeyError (JStr k))
              end
  | _ => Exn TypeError
  end.

(** An index into a sequence; a negative one counts from the end. *)
Definition at_index {A} (l : list A) (i : Z) : option A :=
  let n := Z.of_nat (List.length l) in
  let j := if (i <? 0)%Z then (i + n)%Z else i in
  if ((0 <=? j) && (j <? n))%Z then nth_error l (Z.to_nat j) else None.

(** [v[i]] for an int [i].  The keys of a dict that came from JSON are
    str, so no int is among them. *)
Definition subscript_int (v : json) (i : Z) : result json :=
  match v with
  | JArr l => match at_index l i with
              | Some x => Ok x
              | None => Exn IndexError
              end
  | JStr s => match at_index (py_chars s) i with
              | Some c => Ok (JStr c)
              | None => Exn IndexError
              end
  | JObj _ => Exn (KeyError (JInt i))
  | _ => Exn TypeError
  end.

(** What [for x in v] goes through: the items of a list, the keys of a
    dict, the characters of a str; nothing else is iterable. *)
Definition py_iter (v : json) : result (list json) :=
  match v with
  | JArr l => Ok l
  | JObj o => Ok (map (fun kv => JStr (fst kv)) o)
  | JStr s => Ok (map JStr (py_chars s))
  | _ => Exn TypeError
  end.

(** ** The outside world *)

(** The arguments of one call of [requests.get] or [requests.post]. *)
Inductive method : Type := GET | POST.

Record request : Type := {
  req_method : method;
  req_url : string;
  req_headers : list (string * string);
  req_json : option json
}.

(** A response carries a status code and a body; [body = None] is a body
    that is no JSON document, on which [json()] raises. *)
Record response : Type := {
  status_code : Z;
  body : option json
}.

(** What a call of [requests] comes to: it raises (no connection, a
    timeout), or it returns a response, whatever its status. *)
Inductive outcome : Type :=
| Raised (e : exn)
| Responds (r : response).

Inductive event : Type :=
| Print (line : string)
| Http (r : request).

(** A computation yields a result or a fault, and the events it caused
    up to there, oldest first. *)
Definition M (A : Type) : Type := (result A * list event)%type.

Definition ret {A} (a : A) : M A := (Ok a, []).

Definition bind {A B} (m : M A) (k : A -> M B) : M B :=
  match m with
  | (Ok a, t) => let (r, t') := k a in (r, (t ++ t')%list)
  | (Exn e, t) => (Exn e, t)
  end.

Notation "x <- m ;; k" := (bind m (fun x => k))
  (at level 61, m at next level, right associativity).
Notation "m ;;; k" := (bind m (fun _ => k))
  (at level 61, right associativity).

Definition lift {A} (r : result A) : M A := (r, []).

Definition print (line : string) : M unit := (Ok tt, [Print line]).

Definition response_json (r : response) : M json :=
  match body r with
  | Some v => ret v
  | None => lift (Exn JSONDecodeError)
  end.

(** The four module-level values: [os.environ.get] gives [None] for a
    variable that is not set, and an f-string writes [None] as "None". *)
Record config : Type := {
  ZHIPU_API_KEY : option string;
  GH_PAT : option string;
  PR_NUMBER : option string;
  REPO : option string
}.

Definition fmt_env (v : option string) : string :=
  match v with
  | Some s => s
  | None => "None"
  end.

(** [v['choices'][0]['message']['content']], as [ask_glm] reads the
    answer of the model. *)
Definition first_choice_content (v : json) : result json :=
  choices <~ subscript_str v "choices" ;;
  first <~ subscript_int choices 0 ;;
  message <~ subscript_str first "message" ;;
  subscript_str message "content".

(** ** The script *)

Section Script.

Variable env : config.

(** The network answers a request; the script sends no request twice,
    so a function of the request is enough. *)
Variable net : request -> outcome.

(** [format(v, '')] of a value that is not a str (the text of a number,
    of [None], of a list, ...); an f-string writes a str as it is. *)
Variable format_obj : json -> string.

Definition fstr (v : json) : string :=
  match v with
  | JStr s => s
  | _ => format_obj v
  end.

Definition send (r : request) : M response :=
  match net r with
  | Raised e => (Exn e, [Http r])
  | Responds resp => (Ok resp, [Http r])
  end.

Definition requests_get (url : string) (headers : list (string * string))
  : M response :=
  send {| req_method := GET; req_url := url; req_headers := headers;
          req_json := None |}.

Definition requests_post (url : string) (headers : list (string * string))
  (data : json) : M response :=
  send {| req_method := POST; req_url := url; req_headers := headers;
          req_json := Some data |}.

(** The body of the loop of [get_pr_diff], from the old [diff_content]
    to the new. *)
Definition add_file (diff_content : string) (file : json) : result string :=
  p <~ py_get file "patch" ;;
  if truthy p then
    name <~ subscript_str file "filename" ;;
    patch <~ subscript_str file "patch" ;;
    Ok (diff_content ++ "File: " ++ fstr name ++ LF ++ fstr patch ++ LF ++ LF)
  else Ok diff_content.

Fixpoint for_files (files : list json) (diff_content : string)
  : result string :=
  match files with
  | [] => Ok diff_content
  | file :: rest =>
      d <~ add_file diff_content file ;;
      for_files rest d
  end.

Definition get_pr_diff : M string :=
  let url := "https://api.github.com/repos/" ++ fmt_env (REPO env)
             ++ "/pulls/" ++ fmt_env (PR_NUMBER env) ++ "/files" in
  let headers := [("Authorization", "token " ++ fmt_env (GH_PAT env));
                  ("Accept", "application/vnd.github.v3+json")] in
  response <- requests_get url headers ;;
  files <- response_json response ;;
  items <- lift (py_iter files) ;;
  lift (for_files items "").

Definition ask_glm (diff_text : string) : M json :=
  let url := "https://api.z.ai/api/coding/paas/v4/chat/completions" in
  let headers := [("Authorization", "Bearer " ++ fmt_env (ZHIPU_API_KEY env));
                  ("Content-Type", "application/json")] in
  let payload :=
    JObj [("model", JStr "glm-4.7");
          ("messages",
           JArr [JObj [("role", JStr "user");
                       ("content",
                        JStr ("คุณเป็น Code Reviewer ที่เก่งที่สุด กรุณาตรวจสอบโค้ดด้านล่างนี้ (Diff) และแนะนำการปรับปรุง พร้อมทั้งชี้ช่องโหว่ความปลอดภัยหากมี ตอบเป็นภาษาไทย:"
                              ++ LF ++ LF ++ diff_text))]])] in
  response <- requests_post url headers payload ;;
  v <- response_json response ;;
  lift (first_choice_content v).

Definition post_comment_to_pr (message : json) : M unit :=
  let url := "https://api.github.com/repos/" ++ fmt_env (REPO env)
             ++ "/issues/" ++ fmt_env (PR_NUMBER env) ++ "/comments" in
  let headers := [("Authorization", "token " ++ fmt_env (GH_PAT env));
                  ("Accept", "application/vnd.github.v3+json")] in
  let data :=
    JObj [("body", JStr ("## 🤖 GLM Code Review Bot" ++ LF ++ LF
                         ++ fstr message))] in
  _ <- requests_post url headers data ;;
  ret tt.

(** The block under [if __name__ == "__main__":]. *)
Definition main : M unit :=
  print "Fetching PR diff..." ;;;
  diff <- get_pr_diff ;;
  if negb (truthy (JStr diff)) then
    print "No diff found or diff is too large."
  else
    print "Sending to GLM..." ;;;
    review_result <- ask_glm diff ;;
    print "Posting comment to GitHub..." ;;;
    post_comment_to_pr review_result ;;;
    print "Done!".

End Script.

(** ** The three requests

    The arguments each function hands to [requests], gathered as one
    value, so that a fact on a run can name the request it is about. *)

Definition files_request (env : config) : request :=
  {| req_method := GET;
     req_url := "https://api.github.com/repos/" ++ fmt_env (REPO env)
                ++ "/pulls/" ++ fmt_env (PR_NUMBER env) ++ "/files";
     req_headers := [("Authorization", "token " ++ fmt_env (GH_PAT env));
                     ("Accept", "application/vnd.github.v3+json")];
     req_json := None |}.

Definition review_prompt : string :=
  "คุณเป็น Code Reviewer ที่เก่งที่สุด กรุณาตรวจสอบโค้ดด้านล่างนี้ (Diff) และแนะนำการปรับปรุง พร้อมทั้งชี้ช่องโหว่ความปลอดภัยหากมี ตอบเป็นภาษาไทย:"
  ++ LF ++ LF.

Definition glm_url : string :=
  "https://api.z.ai/api/coding/paas/v4/chat/completions".

Definition glm_request (env : config) (diff_text : string) : request :=
  {| req_method := POST;
     req_url := glm_url;
     req_headers := [("Authorization", "Bearer " ++ fmt_env (ZHIPU_API_KEY env));
                     ("Content-Type", "application/json")];
     req_json :=
       Some (JObj [("model", JStr "glm-4.7");
                   ("messages",
                    JArr [JObj [("role", JStr "user");
                                ("content",
                                 JStr (review_prompt ++ diff_text))]])]) |}.

Definition comments_url (env : config) : string :=
  "https://api.github.com/repos/" ++ fmt_env (REPO env)
  ++ "/issues/" ++ fmt_env (PR_NUMBER env) ++ "/comments".

Definition comment_header : string :=
  "## 🤖 GLM Code Review Bot" ++ LF ++ LF.

Definition comment_request (env : config) (format_obj : json -> string)
  (message : json) : request :=
  {| req_method := POST;
     req_url := comments_url env;
     req_headers := [("Authorization", "token " ++ fmt_env (GH_PAT env));
                     ("Accept", "application/vnd.github.v3+json")];
     req_json :=
       Some (JObj [("body",
                    JStr (comment_header ++ fstr format_obj message))]) |}.

(** ** Reading a run *)

(** A POST to the chat-completion endpoint; a POST to the comments
    endpoint of the pull request. *)
Definition is_llm_call (e : event) : bool :=
  match e with
  | Http {| req_method := POST; req_url := u |} => String.eqb u glm_url
  | _ => false
  end.

Definition is_comment_call (env : config) (e : event) : bool :=
  match e with
  | Http {| req_method := POST; req_url := u |} =>
      String.eqb u (comments_url env)
  | _ => false
  end.

Definition calls (p : event -> bool) (t : list event) : nat :=
  List.length (filter p t).

(** Some call of the first kind comes before some call of the second. *)
Fixpoint in_order (p q : event -> bool) (t : list event) : bool :=
  match t with
  | [] => false
  | e :: rest => if p e then existsb q rest else in_order p q rest
  end.

(** The lines written to the console, oldest first. *)
Fixpoint printed (t : list event) : list string :=
  match t with
  | [] => []
  | Print line :: rest => line :: printed rest
  | Http _ :: rest => printed rest
  end.

(** ** The words of the specification *)

(** A changed file qualifies when its patch is present and non-empty. *)
Definition qualifies (file : json) : bool :=
  match file with
  | JObj o => match lookup "patch" o with
              | Some p => truthy p
              | None => false
              end
  | _ => false
  end.

(** The section of one file in the bundle: a header line with the file
    name, the patch, a blank line. *)
Definition file_section (format_obj : json -> string) (file : json) : string :=
  match file with
  | JObj o =>
      match lookup "filename" o, lookup "patch" o with
      | Some name, Some patch =>
          "File: " ++ fstr format_obj name ++ LF
          ++ fstr format_obj patch ++ LF ++ LF
      | _, _ => ""
      end
  | _ => ""
  end.

(** The bundle as the specification has it: the sections of the
    qualifying files, joined in the order of the list. *)
Definition diff_bundle (format_obj : json -> string) (files : list json)
  : string :=
  String.concat "" (map (file_section format_obj) (filter qualifies files)).

(** A file record the loop goes through without a fault: a dict that,
    when its patch qualifies, has a file name. *)
Definition well_formed_file (file : json) : bool :=
  match file with
  | JObj o =>
      if qualifies file then
        match lookup "filename" o with
        | Some _ => true
        | None => false
        end
      else true
  | _ => false
  end.

(** The answer of the model has the path [choices[0].message.content]. *)
Definition has_content_path (v : json) : bool :=
  match v with
  | JObj o =>
      match lookup "choices" o with
      | Some (JArr (JObj c :: _)) =>
          match lookup "message" c with
          | Some (JObj m) =>
              match lookup "content" m with
              | Some _ => true
              | None => false
              end
          | _ => false
          end
      | _ => false
      end
  | _ => false
  end.

(** ** Example worlds *)

Definition env0 : config :=
  {| ZHIPU_API_KEY := Some "key";
     GH_PAT := Some "pat";
     PR_NUMBER := Some "42";
     REPO := Some "org/repo" |}.

(** A formatter for the examples, whose values are all str or [None]. *)
Definition fmt0 (v : json) : string :=
  match v with
  | JNull => "None"
  | JBool true => "True"
  | JBool false => "False"
  | _ => ""
  end.

Definition patch_a : string :=
  "@@ -1 +1 @@" ++ LF ++ "-x" ++ LF ++ "+y" ++ LF.

Definition file_a : json :=
  JObj [("filename", JStr "a.py"); ("patch", JStr patch_a)].

(** The bundle of a pull request whose one patch is that of [file_a]. *)
Definition diff_a : string :=
  "File: a.py" ++ LF ++ patch_a ++ LF ++ LF.

(** A binary file: the hosting API gives it no patch. *)
Definition file_b : json :=
  JObj [("filename", JStr "b.bin"); ("status", JStr "modified")].

(** A record with a patch and no file name. *)
Definition file_c : json :=
  JObj [("patch", JStr "@@ -0,0 +1 @@")].

Definition replies (v : json) : outcome :=
  Responds {| status_code := 200; body := Some v |}.

Definition review_ok : json :=
  JObj [("choices",
         JArr [JObj [("message", JObj [("role", JStr "assistant");
                                       ("content", JStr "LGTM")])]])].

(** A world from the list of changed files, the answer of the model, and
    the outcome of posting the comment. *)
Definition world (files : json) (review : outcome) (posted : outcome)
  (r : request) : outcome :=
  match req_method r with
  | GET => replies files
  | POST => if String.eqb (req_url r) glm_url then review else posted
  end.

Definition created : outcome :=
  Responds {| status_code := 201; body := Some (JObj [("id", JInt 1)]) |}.

Definition forbidden : outcome :=
  Responds {| status_code := 403; body := None |}.

Definition net0 : request -> outcome :=
  world (JArr [file_a; file_b]) (replies review_ok) created.

Definition net_no_patch : request -> outcome :=
  world (JArr [file_b]) (replies review_ok) created.

(** An answer of the model service that reports an error. *)
Definition review_error : json :=
  JObj [("error", JObj [("message", JStr "quota")])].

Definition net_no_choices : request -> outcome :=
  world (JArr [file_a; file_b]) (replies review_error) created.

Definition net_no_filename : request -> outcome :=
  world (JArr [file_b; file_c; file_a]) (replies review_ok) created.

Definition net_post_refused : request -> outcome :=
  world (JArr [file_a; file_b]) (replies review_ok) forbidden.

(** An error answer of the hosting API: an object, not a list. *)
Definition api_error : json :=
  JObj [("message", JStr "Not Found");
        ("documentation_url", JStr "https://docs.github.com/rest")].

Definition net_api_error : request -> outcome :=
  world api_error (replies review_ok) created.

(** No network at all. *)
Definition net_down (r : request) : outcome := Raised RequestException.

(** A list with an entry that is no dict. *)
Definition net_bad_entry : request -> outcome :=
  world (JArr [file_b; JNull; file_a]) (replies review_ok) created.

(** A file whose patch is [null]. *)
Definition file_null_patch : json :=
  JObj [("filename", JStr "c.png"); ("patch", JNull)].

Definition net_null_patch : request -> outcome :=
  world (JArr [file_a; file_null_patch]) (replies review_ok) created.

(** The model answers with a status of failure and a well-formed body. *)
Definition net_review_500 : request -> outcome :=
  world (JArr [file_a; file_b])
        (Responds {| status_code := 500; body := Some review_ok |}) created.

(** The model answers with no choice at all. *)
Definition net_empty_choices : request -> outcome :=
  world (JArr [file_a; file_b]) (replies (JObj [("choices", JArr [])])) created.

(** The connection breaks when the comment is posted. *)
Definition net_post_down : request -> outcome :=
  world (JArr [file_a; file_b]) (replies review_ok) (Raised RequestException).

(** No variable of the environment is set. *)
Definition env_unset : config :=
  {| ZHIPU_API_KEY := None; GH_PAT := None; PR_NUMBER := None; REPO := None |}.

(** A second file with a patch, whose name sorts after that of [file_a]. *)
Definition patch_z : string :=
  "@@ -2 +2 @@" ++ LF ++ "-old" ++ LF ++ "+new" ++ LF.

Definition file_z : json :=
  JObj [("sha", JStr "3f2a"); ("filename", JStr "z.py");
        ("patch", JStr patch_z)].

(** Two files with a patch around one without, [z.py] listed first. *)
Definition net_order : request -> outcome :=
  world (JArr [file_z; file_b; file_a]) (replies review_ok) created.

(** [a.py] between a file without a patch and [z.py]. *)
Definition net_middle : request -> outcome :=
  world (JArr [file_b; file_a; file_z]) (replies review_ok) created.

(** * Facts *)

Section Runs.

Variable env : config.
Variable net : request -> outcome.
Variable format_obj : json -> string.

Local Abbreviation F := (files_request env).
Local Abbreviation G := (glm_request env).
Local Abbreviation C := (comment_request env format_obj).

(** ** Each function sends the one request it builds *)

Lemma get_pr_diff_eq :
  get_pr_diff env net format_obj =
  (response <- send net F ;;
   files <- response_json response ;;
   items <- lift (py_iter files) ;;
   lift (for_files format_obj items "")).
Proof. reflexivity. Qed.

Lemma ask_glm_eq (d : string) :
  ask_glm env net d =
  (response <- send net (G d) ;;
   v <- response_json response ;;
   lift (first_choice_content v)).
Proof. reflexivity. Qed.

Lemma post_comment_to_pr_eq (message : json) :
  post_comment_to_pr env net format_obj message =
  (_ <- send net (C message) ;; ret tt).
Proof. reflexivity. Qed.

Lemma send_trace (r : request) : snd (send net r) = [Http r].
Proof. unfold send. destruct (net r); reflexivity. Qed.

Lemma send_responds (r : request) (resp : response) :
  net r = Responds resp -> send net r = (Ok resp, [Http r]).
Proof. intros H. unfold send. rewrite H. reflexivity. Qed.

Lemma send_raised (r : request) (e : exn) :
  net r = Raised e -> send net r = (Exn e, [Http r]).
Proof. intros H. unfold send. rewrite H. reflexivity. Qed.

Lemma get_pr_diff_json (st : Z) (v : json) :
  net F = Responds {| status_code := st; body := Some v |} ->
  get_pr_diff env net format_obj =
  (items <~ py_iter v ;; for_files format_obj items "", [Http F]).
Proof.
  intros H. rewrite get_pr_diff_eq, (send_responds _ _ H).
  unfold response_json; simpl.
  destruct (py_iter v); reflexivity.
Qed.

Lemma get_pr_diff_list (st : Z) (files : list json) :
  net F = Responds {| status_code := st; body := Some (JArr files) |} ->
  get_pr_diff env net format_obj = (for_files format_obj files "", [Http F]).
Proof. intros H. rewrite (get_pr_diff_json _ _ H). reflexivity. Qed.

Lemma get_pr_diff_trace : snd (get_pr_diff env net format_obj) = [Http F].
Proof.
  rewrite get_pr_diff_eq. unfold send.
  destruct (net F) as [e | [st [v |]]]; try reflexivity.
  unfold response_json; simpl. destruct (py_iter v); reflexivity.
Qed.

Lemma ask_glm_json (d : string) (st : Z) (v : json) :
  net (G d) = Responds {| status_code := st; body := Some v |} ->
  ask_glm env net d = (first_choice_content v, [Http (G d)]).
Proof.
  intros H. rewrite ask_glm_eq, (send_responds _ _ H). reflexivity.
Qed.

Lemma ask_glm_not_json (d : string) (st : Z) :
  net (G d) = Responds {| status_code := st; body := None |} ->
  ask_glm env net d = (Exn JSONDecodeError, [Http (G d)]).
Proof.
  intros H. rewrite ask_glm_eq, (send_responds _ _ H). reflexivity.
Qed.

Lemma ask_glm_trace (d : string) : snd (ask_glm env net d) = [Http (G d)].
Proof.
  rewrite ask_glm_eq. unfold send.
  destruct (net (G d)) as [e | [st [v |]]]; reflexivity.
Qed.

Lemma post_comment_trace (message : json) :
  snd (post_comment_to_pr env net format_obj message) = [Http (C message)].
Proof.
  rewrite post_comment_to_pr_eq. unfold send.
  destruct (net (C message)); reflexivity.
Qed.

Lemma post_comment_responds (message : json) (resp : response) :
  net (C message) = Responds resp ->
  post_comment_to_pr env net format_obj message = (Ok tt, [Http (C message)]).
Proof.
  intros H. rewrite post_comment_to_pr_eq, (send_responds _ _ H). reflexivity.
Qed.

Lemma post_comment_raised (message : json) (e : exn) :
  net (C message) = Raised e ->
  post_comment_to_pr env net format_obj message = (Exn e, [Http (C message)]).
Proof.
  intros H. rewrite post_comment_to_pr_eq, (send_raised _ _ H). reflexivity.
Qed.

(** ** The runs of the main block, by the way each call ends *)

Lemma main_fetch_fault (e : exn) :
  fst (get_pr_diff env net format_obj) = Exn e ->
  main env net format_obj = (Exn e, [Print "Fetching PR diff..."; Http F]).
Proof.
  intros H. pose proof get_pr_diff_trace as T. unfold main.
  destruct (get_pr_diff env net format_obj) as [r t].
  simpl in H, T. subst r t. reflexivity.
Qed.

Lemma main_empty :
  fst (get_pr_diff env net format_obj) = Ok "" ->
  main env net format_obj =
  (Ok tt, [Print "Fetching PR diff..."; Http F;
           Print "No diff found or diff is too large."]).
Proof.
  intros H. pose proof get_pr_diff_trace as T. unfold main.
  destruct (get_pr_diff env net format_obj) as [r t].
  simpl in H, T. subst r t. reflexivity.
Qed.

Lemma main_review_fault (d : string) (e : exn) :
  fst (get_pr_diff env net format_obj) = Ok d -> d <> "" ->
  fst (ask_glm env net d) = Exn e ->
  main env net format_obj =
  (Exn e, [Print "Fetching PR diff..."; Http F;
           Print "Sending to GLM..."; Http (G d)]).
Proof.
  intros H Hd Ha. pose proof get_pr_diff_trace as T.
  pose proof (ask_glm_trace d) as Ta. unfold main.
  set (ask := ask_glm env net) in *. clearbody ask.
  destruct (get_pr_diff env net format_obj) as [r t].
  simpl in H, T. subst r t.
  destruct d as [| c d]; [contradiction |]. simpl.
  destruct (ask (String c d)) as [r t].
  simpl in Ha, Ta. subst r t. reflexivity.
Qed.

Lemma main_post (d : string) (message : json) :
  fst (get_pr_diff env net format_obj) = Ok d -> d <> "" ->
  fst (ask_glm env net d) = Ok message ->
  main env net format_obj =
  match fst (post_comment_to_pr env net format_obj message) with
  | Ok _ =>
      (Ok tt, [Print "Fetching PR diff..."; Http F;
               Print "Sending to GLM..."; Http (G d);
               Print "Posting comment to GitHub..."; Http (C message);
               Print "Done!"])
  | Exn e =>
      (Exn e, [Print "Fetching PR diff..."; Http F;
               Print "Sending to GLM..."; Http (G d);
               Print "Posting comment to GitHub..."; Http (C message)])
  end.
Proof.
  intros H Hd Ha. pose proof get_pr_diff_trace as T.
  pose proof (ask_glm_trace d) as Ta.
  pose proof (post_comment_trace message) as Tp. unfold main.
  set (ask := ask_glm env net) in *. clearbody ask.
  set (post := post_comment_to_pr env net format_obj) in *. clearbody post.
  destruct (get_pr_diff env net format_obj) as [r t].
  simpl in H, T. subst r t.
  destruct d as [| c d]; [contradiction |]. simpl.
  destruct (ask (String c d)) as [r t].
  simpl in Ha, Ta. subst r t. simpl.
  destruct (post message) as [[[] | e] t]; simpl in Tp; subst t; reflexivity.
Qed.

End Runs.

(** ** Strings *)

Lemma append_nil_r (s : string) : s ++ "" = s.
Proof. induction s as [| c s IH]; simpl; [| rewrite IH]; reflexivity. Qed.

Lemma append_assoc (s1 s2 s3 : string) : (s1 ++ s2) ++ s3 = s1 ++ s2 ++ s3.
Proof. induction s1 as [| c s1 IH]; simpl; [| rewrite IH]; reflexivity. Qed.

Lemma prefix_append (p s : string) : String.prefix p (p ++ s) = true.
Proof.
  induction p as [| c p IH]; simpl.
  - destruct s; reflexivity.
  - destruct (ascii_dec c c) as [_ | N]; [exact IH | contradiction].
Qed.

Lemma concat_cons (x : string) (xs : list string) :
  String.concat "" (x :: xs) = x ++ String.concat "" xs.
Proof.
  destruct xs as [| y ys]; simpl; [rewrite append_nil_r |]; reflexivity.
Qed.

Lemma concat_app (xs ys : list string) :
  String.concat "" (xs ++ ys) = String.concat "" xs ++ String.concat "" ys.
Proof.
  induction xs as [| x xs IH]; [reflexivity |].
  rewrite <- app_comm_cons, !concat_cons, IH, append_assoc. reflexivity.
Qed.

(** ** The loop of [get_pr_diff] *)

Section Loop.

Variable format_obj : json -> string.

Local Abbreviation step := (add_file format_obj).
Local Abbreviation loop := (for_files format_obj).
Local Abbreviation section_of := (file_section format_obj).
Local Abbreviation bundle := (diff_bundle format_obj).

Lemma add_file_skip (acc : string) (o : list (string * json)) :
  qualifies (JObj o) = false -> step acc (JObj o) = Ok acc.
Proof.
  unfold add_file, qualifies, py_get. intros H.
  destruct (lookup "patch" o) as [p |]; simpl; [rewrite H |]; reflexivity.
Qed.

Lemma add_file_section (acc : string) (o : list (string * json)) (name : json) :
  qualifies (JObj o) = true -> lookup "filename" o = Some name ->
  step acc (JObj o) = Ok (acc ++ section_of (JObj o)).
Proof.
  unfold add_file, file_section, qualifies, py_get,
    subscript_str.
  intros H N. rewrite N.
  destruct (lookup "patch" o) as [p |]; [| discriminate].
  simpl. rewrite H. reflexivity.
Qed.

Lemma add_file_no_filename (acc : string) (o : list (string * json)) :
  qualifies (JObj o) = true -> lookup "filename" o = None ->
  step acc (JObj o) = Exn (KeyError (JStr "filename")).
Proof.
  unfold add_file, qualifies, py_get, subscript_str.
  intros H N. rewrite N.
  destruct (lookup "patch" o) as [p |]; [| discriminate].
  simpl. rewrite H. reflexivity.
Qed.

Lemma add_file_well_formed (acc : string) (file : json) :
  well_formed_file file = true ->
  step acc file =
  Ok (if qualifies file then acc ++ section_of file else acc).
Proof.
  destruct file as [| | | | | | o]; try discriminate.
  unfold well_formed_file.
  destruct (qualifies (JObj o)) eqn:Q.
  - destruct (lookup "filename" o) as [name |] eqn:N; [| discriminate].
    intros _. exact (add_file_section acc o name Q N).
  - intros _. exact (add_file_skip acc o Q).
Qed.

Lemma add_file_ok_inv (acc d : string) (file : json) :
  step acc file = Ok d -> well_formed_file file = true.
Proof.
  destruct file as [| | | | | | o]; try discriminate.
  unfold well_formed_file.
  destruct (qualifies (JObj o)) eqn:Q; [| reflexivity].
  destruct (lookup "filename" o) as [name |] eqn:N; [reflexivity |].
  rewrite (add_file_no_filename acc o Q N). discriminate.
Qed.

Lemma for_files_app (l1 l2 : list json) (acc : string) :
  loop (l1 ++ l2) acc = (d <~ loop l1 acc ;; loop l2 d).
Proof.
  revert acc. induction l1 as [| file l1 IH]; intros acc; [reflexivity |].
  simpl. destruct (step acc file) as [d | e]; simpl; [apply IH | reflexivity].
Qed.

Lemma diff_bundle_cons (file : json) (files : list json) :
  bundle (file :: files) =
  (if qualifies file then section_of file else "") ++ bundle files.
Proof.
  unfold diff_bundle. simpl.
  destruct (qualifies file); [| reflexivity].
  simpl map. apply concat_cons.
Qed.

Lemma diff_bundle_app (l1 l2 : list json) :
  bundle (l1 ++ l2) = bundle l1 ++ bundle l2.
Proof.
  unfold diff_bundle. rewrite filter_app, map_app. apply concat_app.
Qed.

Lemma for_files_well_formed (files : list json) (acc : string) :
  forallb well_formed_file files = true ->
  loop files acc = Ok (acc ++ bundle files).
Proof.
  revert acc. induction files as [| file files IH]; intros acc W.
  - simpl. rewrite append_nil_r. reflexivity.
  - simpl in W. apply andb_true_iff in W as [Wf W].
    simpl. rewrite (add_file_well_formed acc file Wf). simpl.
    rewrite (IH _ W), diff_bundle_cons.
    destruct (qualifies file); [rewrite append_assoc |]; reflexivity.
Qed.

Lemma for_files_ok_inv (files : list json) (acc d : string) :
  loop files acc = Ok d -> forallb well_formed_file files = true.
Proof.
  revert acc. induction files as [| file files IH]; intros acc H;
    [reflexivity |].
  simpl in H. destruct (step acc file) as [d' | e] eqn:A; [| discriminate].
  simpl in H. simpl. rewrite (add_file_ok_inv _ _ _ A). exact (IH _ H).
Qed.

End Loop.

(** * The properties of the specification *)

(** ** DiffFetcher *)

(** C2: for every file record of the response whose patch is present
    and non-empty, wherever it stands in the list, [get_pr_diff] appends
    exactly "File: {filename}\n{patch}\n\n" to what the records before
    it gave, and goes on with the records after it; when the response
    lists that one file, the bundle is that section, and for the file
    "a.py" with patch "@@ -1 +1 @@\n-x\n+y\n" it is exactly
    "File: a.py\n@@ -1 +1 @@\n-x\n+y\n\n\n". *)
Theorem get_pr_diff_appends_section
  (env : config) (net : request -> outcome) (format_obj : json -> string)
  (st : Z) (pre post : list json) (o : list (string * json))
  (name patch : string) :
  lookup "filename" o = Some (JStr name) ->
  lookup "patch" o = Some (JStr patch) ->
  patch <> "" ->
  net (files_request env) =
    Responds {| status_code := st;
                body := Some (JArr (pre ++ JObj o :: post)) |} ->
  (forall acc : string,
      add_file format_obj acc (JObj o) =
      Ok (acc ++ "File: " ++ name ++ LF ++ patch ++ LF ++ LF))
  /\ (forall acc : string,
         for_files format_obj (pre ++ JObj o :: post) acc =
         (d <~ for_files format_obj pre acc ;;
          for_files format_obj post
            (d ++ "File: " ++ name ++ LF ++ patch ++ LF ++ LF)))
  /\ get_pr_diff env net format_obj =
     (d <~ for_files format_obj pre "" ;;
      for_files format_obj post
        (d ++ "File: " ++ name ++ LF ++ patch ++ LF ++ LF),
      [Http (files_request env)])
  /\ (forallb well_formed_file pre = true ->
      forallb well_formed_file post = true ->
      get_pr_diff env net format_obj =
      (Ok (diff_bundle format_obj pre
           ++ ("File: " ++ name ++ LF ++ patch ++ LF ++ LF)
           ++ diff_bundle format_obj post),
       [Http (files_request env)]))
  /\ (pre = [] -> post = [] ->
      get_pr_diff env net format_obj =
      (Ok ("File: " ++ name ++ LF ++ patch ++ LF ++ LF),
       [Http (files_request env)]))
  /\ (pre = [] -> post = [] -> name = "a.py" ->
      patch = "@@ -1 +1 @@" ++ LF ++ "-x" ++ LF ++ "+y" ++ LF ->
      fst (get_pr_diff env net format_obj) =
      Ok ("File: a.py" ++ LF ++ "@@ -1 +1 @@" ++ LF ++ "-x" ++ LF ++ "+y"
          ++ LF ++ LF ++ LF)).
Proof.
  intros N P NE H.
  assert (A : forall acc : string,
             add_file format_obj acc (JObj o) =
             Ok (acc ++ "File: " ++ name ++ LF ++ patch ++ LF ++ LF)).
  { intros acc. unfold add_file, py_get, subscript_str. rewrite P, N. simpl.
    destruct patch as [| c p]; [contradiction | reflexivity]. }
  assert (L : forall acc : string,
             for_files format_obj (pre ++ JObj o :: post) acc =
             (d <~ for_files format_obj pre acc ;;
              for_files format_obj post
                (d ++ "File: " ++ name ++ LF ++ patch ++ LF ++ LF))).
  { intros acc. rewrite for_files_app.
    destruct (for_files format_obj pre acc) as [d | e]; [| reflexivity].
    cbn [bindR for_files]. rewrite (A d). reflexivity. }
  assert (R : get_pr_diff env net format_obj =
              (d <~ for_files format_obj pre "" ;;
               for_files format_obj post
                 (d ++ "File: " ++ name ++ LF ++ patch ++ LF ++ LF),
               [Http (files_request env)])).
  { rewrite (get_pr_diff_list env net format_obj st _ H), (L "").
    reflexivity. }
  split; [exact A |]. split; [exact L |]. split; [exact R |].
  split; [| split].
  - intros Wpre Wpost.
    rewrite R, (for_files_well_formed format_obj pre "" Wpre).
    cbn [bindR]. rewrite (for_files_well_formed format_obj post _ Wpost).
    cbn [append]. rewrite append_assoc. reflexivity.
  - intros -> ->. rewrite R. reflexivity.
  - intros -> -> -> ->. rewrite R. reflexivity.
Qed.

Lemma get_pr_diff_appends_section_witness :
  lookup "filename" [("filename", JStr "a.py"); ("patch", JStr patch_a)]
    = Some (JStr "a.py")
  /\ patch_a <> ""
  /\ forallb well_formed_file [file_b] = true
  /\ get_pr_diff env0 net_middle fmt0 =
     (Ok (("File: a.py" ++ LF ++ patch_a ++ LF ++ LF)
          ++ ("File: z.py" ++ LF ++ patch_z ++ LF ++ LF)),
      [Http (files_request env0)])
  /\ fst (get_pr_diff env0 (world (JArr [file_a]) (replies review_ok) created)
            fmt0)
     = Ok ("File: a.py" ++ LF ++ "@@ -1 +1 @@" ++ LF ++ "-x" ++ LF ++ "+y"
           ++ LF ++ LF ++ LF).
Proof.
  assert (NE : patch_a <> "") by discriminate.
  split; [reflexivity |]. split; [exact NE |]. split; [reflexivity |]. split.
  - exact (proj1 (proj2 (proj2 (proj2 (get_pr_diff_appends_section
             env0 net_middle fmt0 200%Z [file_b] [file_z]
             [("filename", JStr "a.py"); ("patch", JStr patch_a)]
             "a.py" patch_a eq_refl eq_refl NE eq_refl))))
           eq_refl eq_refl).
  - exact (proj2 (proj2 (proj2 (proj2 (proj2 (get_pr_diff_appends_section
             env0 (world (JArr [file_a]) (replies review_ok) created) fmt0
             200%Z [] []
             [("filename", JStr "a.py"); ("patch", JStr patch_a)]
             "a.py" patch_a eq_refl eq_refl NE eq_refl)))))
           eq_refl eq_refl eq_refl eq_refl).
Defined.

(** C5: an entry of the file list with no [patch] key, or with an empty
    patch, adds nothing to the bundle and raises no fault; the run over
    the list is the run over the list without that entry. *)
Theorem get_pr_diff_skips_patchless
  (env : config) (net : request -> outcome) (format_obj : json -> string)
  (o : list (string * json)) :
  lookup "patch" o = None \/ lookup "patch" o = Some (JStr "") ->
  (forall acc : string, add_file format_obj acc (JObj o) = Ok acc)
  /\ (forall (pre post : list json) (acc : string),
         for_files format_obj (pre ++ JObj o :: post) acc =
         for_files format_obj (pre ++ post) acc)
  /\ (forall (st : Z) (pre post : list json),
         net (files_request env) =
           Responds {| status_code := st;
                       body := Some (JArr (pre ++ JObj o :: post)) |} ->
         get_pr_diff env net format_obj =
         (for_files format_obj (pre ++ post) "", [Http (files_request env)])).
Proof.
  intros H.
  assert (Q : qualifies (JObj o) = false).
  { unfold qualifies. destruct H as [-> | ->]; reflexivity. }
  assert (L : forall (pre post : list json) (acc : string),
             for_files format_obj (pre ++ JObj o :: post) acc =
             for_files format_obj (pre ++ post) acc).
  { intros pre post acc. rewrite !for_files_app.
    destruct (for_files format_obj pre acc) as [d | e]; [| reflexivity].
    simpl. rewrite (add_file_skip format_obj d o Q). reflexivity. }
  repeat split.
  - intros acc. exact (add_file_skip format_obj acc o Q).
  - exact L.
  - intros st pre post R.
    rewrite (get_pr_diff_list env net format_obj st _ R). rewrite L.
    reflexivity.
Qed.

Lemma get_pr_diff_skips_patchless_witness :
  lookup "patch" [("filename", JStr "b.bin"); ("status", JStr "modified")]
    = None
  /\ get_pr_diff env0 net0 fmt0 =
     (for_files fmt0 ([file_a] ++ []) "", [Http (files_request env0)])
  /\ fst (get_pr_diff env0 net0 fmt0) =
     Ok ("File: a.py" ++ LF ++ patch_a ++ LF ++ LF).
Proof.
  split; [reflexivity |]. split; [| reflexivity].
  exact (proj2 (proj2 (get_pr_diff_skips_patchless env0 net0 fmt0
           [("filename", JStr "b.bin"); ("status", JStr "modified")]
           (or_introl eq_refl))) 200%Z [file_a] [] eq_refl).
Defined.

(** C9: an entry whose patch is present and non-empty but which has no
    [filename] key makes the loop raise [KeyError('filename')]: the list
    that holds it always ends [get_pr_diff], and the program, in a fault,
    and that fault is the [KeyError] when the entries before it went
    through.  Only a missing or empty patch is skipped without a fault. *)
Theorem get_pr_diff_faults_without_filename
  (env : config) (net : request -> outcome) (format_obj : json -> string)
  (o : list (string * json)) (p : json) :
  lookup "patch" o = Some p ->
  truthy p = true ->
  lookup "filename" o = None ->
  (forall acc : string,
      add_file format_obj acc (JObj o) = Exn (KeyError (JStr "filename")))
  /\ (forall (st : Z) (pre post : list json),
         net (files_request env) =
           Responds {| status_code := st;
                       body := Some (JArr (pre ++ JObj o :: post)) |} ->
         (exists e : exn,
             get_pr_diff env net format_obj =
               (Exn e, [Http (files_request env)])
             /\ main env net format_obj =
               (Exn e, [Print "Fetching PR diff..."; Http (files_request env)]))
         /\ (forallb well_formed_file pre = true ->
             get_pr_diff env net format_obj =
               (Exn (KeyError (JStr "filename")), [Http (files_request env)]))).
Proof.
  intros P T N.
  assert (Q : qualifies (JObj o) = true).
  { unfold qualifies. rewrite P. exact T. }
  assert (A : forall acc : string,
             add_file format_obj acc (JObj o) = Exn (KeyError (JStr "filename"))).
  { intros acc. exact (add_file_no_filename format_obj acc o Q N). }
  split; [exact A |].
  intros st pre post R.
  pose proof (get_pr_diff_list env net format_obj st _ R) as E.
  rewrite for_files_app in E.
  split.
  - destruct (for_files format_obj pre "") as [d | e] eqn:L.
    + simpl in E. rewrite A in E. simpl in E.
      eexists. split; [exact E |].
      apply main_fetch_fault. rewrite E. reflexivity.
    + simpl in E. exists e. split; [exact E |].
      apply main_fetch_fault. rewrite E. reflexivity.
  - intros W. rewrite (for_files_well_formed format_obj pre "" W) in E.
    simpl in E. rewrite A in E. exact E.
Qed.

Lemma get_pr_diff_faults_without_filename_witness :
  lookup "patch" [("patch", JStr "@@ -0,0 +1 @@")]
    = Some (JStr "@@ -0,0 +1 @@")
  /\ truthy (JStr "@@ -0,0 +1 @@") = true
  /\ forallb well_formed_file [file_b] = true
  /\ get_pr_diff env0 net_no_filename fmt0 =
     (Exn (KeyError (JStr "filename")), [Http (files_request env0)]).
Proof.
  split; [reflexivity |]. split; [reflexivity |]. split; [reflexivity |].
  exact (proj2 (proj2 (get_pr_diff_faults_without_filename
           env0 net_no_filename fmt0 [("patch", JStr "@@ -0,0 +1 @@")]
           (JStr "@@ -0,0 +1 @@") eq_refl eq_refl eq_refl)
           200%Z [file_b] [file_a] eq_refl) eq_refl).
Defined.

(** C10: the bundle [get_pr_diff] returns is the concatenation, in the
    order of the response list, of the sections "File: {filename}\n{patch}\n\n"
    of the qualifying files: it is returned for every list the loop goes
    through, whatever is returned is that concatenation, and the bundle
    of a list cut in two is the bundle of the first part followed by the
    bundle of the second. *)
Theorem get_pr_diff_in_order
  (env : config) (net : request -> outcome) (format_obj : json -> string)
  (st : Z) (files : list json) :
  net (files_request env) =
    Responds {| status_code := st; body := Some (JArr files) |} ->
  (forallb well_formed_file files = true ->
   get_pr_diff env net format_obj =
   (Ok (diff_bundle format_obj files), [Http (files_request env)]))
  /\ (forall d : string,
         fst (get_pr_diff env net format_obj) = Ok d ->
         d = diff_bundle format_obj files)
  /\ (forall l1 l2 : list json,
         files = (l1 ++ l2)%list ->
         diff_bundle format_obj files =
         diff_bundle format_obj l1 ++ diff_bundle format_obj l2).
Proof.
  intros R.
  pose proof (get_pr_diff_list env net format_obj st files R) as E.
  repeat split.
  - intros W. rewrite E, (for_files_well_formed format_obj files "" W).
    reflexivity.
  - intros d H. rewrite E in H. simpl in H.
    pose proof (for_files_ok_inv format_obj files "" d H) as W.
    rewrite (for_files_well_formed format_obj files "" W) in H.
    injection H as <-. reflexivity.
  - intros l1 l2 ->. apply diff_bundle_app.
Qed.

Lemma get_pr_diff_in_order_witness :
  forallb well_formed_file [file_z; file_b; file_a] = true
  /\ get_pr_diff env0 net_order fmt0 =
     (Ok (("File: z.py" ++ LF ++ patch_z ++ LF ++ LF)
          ++ ("File: a.py" ++ LF ++ patch_a ++ LF ++ LF)),
      [Http (files_request env0)])
  /\ diff_bundle fmt0 [file_z; file_b; file_a] =
     diff_bundle fmt0 [file_z] ++ diff_bundle fmt0 [file_b; file_a]
  /\ diff_bundle fmt0 [file_z; file_b; file_a] <>
     ("File: a.py" ++ LF ++ patch_a ++ LF ++ LF)
     ++ ("File: z.py" ++ LF ++ patch_z ++ LF ++ LF).
Proof.
  pose proof (get_pr_diff_in_order env0 net_order fmt0 200%Z
                [file_z; file_b; file_a] eq_refl) as [R [_ S]].
  split; [reflexivity |]. split; [exact (R eq_refl) |].
  split; [exact (S [file_z] [file_b; file_a] eq_refl) |].
  discriminate.
Defined.

(** ** ReviewRequester *)

Lemma subscript_int_first (x : json) (l : list json) :
  subscript_int (JArr (x :: l)) 0 = Ok x.
Proof. reflexivity. Qed.

Lemma subscript_str_of_str (s k : string) (i : Z) :
  (c <~ subscript_int (JStr s) i ;; subscript_str c k) = Exn IndexError
  \/ (c <~ subscript_int (JStr s) i ;; subscript_str c k) = Exn TypeError.
Proof.
  unfold subscript_int. destruct (at_index (py_chars s) i); simpl; auto.
Qed.

(** The chain of subscripts returns exactly on the answers that have the
    path, and then returns what is at its end. *)
Lemma first_choice_content_fault (v : json) :
  has_content_path v = false -> exists e : exn, first_choice_content v = Exn e.
Proof.
  unfold first_choice_content, has_content_path.
  destruct v as [| | | | | | o]; try (intros _; eexists; reflexivity).
  simpl. destruct (lookup "choices" o) as [c |];
    [| intros _; eexists; reflexivity].
  simpl.
  destruct c as [| | | | s | l | o'];
    try (intros _; eexists; reflexivity).
  - intros _.
    destruct (subscript_str_of_str s "message" 0) as [E | E];
      unfold bindR in E |- *;
      destruct (subscript_int (JStr s) 0); eexists; simpl;
      try reflexivity; try discriminate;
      destruct (subscript_str a "message"); try discriminate;
      injection E as ->; reflexivity.
  - destruct l as [| x l]; [intros _; eexists; reflexivity |].
    rewrite subscript_int_first. simpl.
    destruct x as [| | | | | | c]; try (intros _; eexists; reflexivity).
    simpl. destruct (lookup "message" c) as [m |];
      [| intros _; eexists; reflexivity].
    simpl. destruct m as [| | | | | | m]; try (intros _; eexists; reflexivity).
    simpl. destruct (lookup "content" m); [discriminate |].
    intros _; eexists; reflexivity.
Qed.

Lemma first_choice_content_ok (v : json) :
  has_content_path v = true -> exists c : json, first_choice_content v = Ok c.
Proof.
  unfold first_choice_content, has_content_path.
  destruct v as [| | | | | | o]; try discriminate.
  simpl. destruct (lookup "choices" o) as [[| | | | | [| [| | | | | | c] l] |] |];
    try discriminate.
  simpl.
  destruct (lookup "message" c) as [[| | | | | | m] |]; try discriminate.
  simpl. destruct (lookup "content" m) as [x |]; [| discriminate].
  intros _. exists x. reflexivity.
Qed.

Lemma first_choice_content_no_choices (o : list (string * json)) :
  lookup "choices" o = None ->
  first_choice_content (JObj o) = Exn (KeyError (JStr "choices")).
Proof. intros H. unfold first_choice_content. simpl. rewrite H. reflexivity. Qed.

(** ** What kind of call an event is *)

Lemma glm_is_llm_call (env : config) (d : string) :
  is_llm_call (Http (glm_request env d)) = true.
Proof. reflexivity. Qed.

Lemma glm_is_no_comment_call (env : config) (d : string) :
  is_comment_call env (Http (glm_request env d)) = false.
Proof. reflexivity. Qed.

Lemma comment_is_comment_call
  (env : config) (format_obj : json -> string) (m : json) :
  is_comment_call env (Http (comment_request env format_obj m)) = true.
Proof. simpl. apply String.eqb_refl. Qed.

Lemma comment_is_no_llm_call
  (env : config) (format_obj : json -> string) (m : json) :
  is_llm_call (Http (comment_request env format_obj m)) = false.
Proof. reflexivity. Qed.

(** C4: when the answer of the model has no [choices[0].message.content]
    path (its body is no JSON, or the JSON lacks the path), [ask_glm]
    raises after its one request; with no [choices] key the fault is
    [KeyError('choices')].  Nothing catches it: the program ends in that
    fault right after the request to the model, and no comment is posted. *)
Theorem ask_glm_faults_without_content
  (env : config) (net : request -> outcome) (format_obj : json -> string)
  (d : string) (st : Z) (b : option json) :
  net (glm_request env d) = Responds {| status_code := st; body := b |} ->
  (forall v : json, b = Some v -> has_content_path v = false) ->
  exists e : exn,
    ask_glm env net d = (Exn e, [Http (glm_request env d)])
    /\ (forall o : list (string * json),
           b = Some (JObj o) -> lookup "choices" o = None ->
           e = KeyError (JStr "choices"))
    /\ (fst (get_pr_diff env net format_obj) = Ok d -> d <> "" ->
        main env net format_obj =
          (Exn e, [Print "Fetching PR diff..."; Http (files_request env);
                   Print "Sending to GLM..."; Http (glm_request env d)])
        /\ calls (is_comment_call env) (snd (main env net format_obj)) = 0%nat).
Proof.
  intros R L.
  assert (A : exists e : exn,
             ask_glm env net d = (Exn e, [Http (glm_request env d)])
             /\ (forall o : list (string * json),
                    b = Some (JObj o) -> lookup "choices" o = None ->
                    e = KeyError (JStr "choices"))).
  { destruct b as [v |].
    - destruct (first_choice_content_fault v (L v eq_refl)) as [e E].
      exists e. split.
      + rewrite (ask_glm_json env net d st v R), E. reflexivity.
      + intros o Ho Hc. injection Ho as ->.
        rewrite (first_choice_content_no_choices o Hc) in E.
        injection E as <-. reflexivity.
    - exists JSONDecodeError. split; [| discriminate].
      exact (ask_glm_not_json env net d st R). }
  destruct A as [e [A K]]. exists e. split; [exact A |]. split; [exact K |].
  intros D N.
  assert (Mn : main env net format_obj =
               (Exn e, [Print "Fetching PR diff..."; Http (files_request env);
                        Print "Sending to GLM..."; Http (glm_request env d)])).
  { apply main_review_fault; [exact D | exact N |]. rewrite A. reflexivity. }
  split; [exact Mn |]. rewrite Mn. reflexivity.
Qed.

Lemma ask_glm_faults_without_content_witness :
  has_content_path review_error = false
  /\ fst (get_pr_diff env0 net_no_choices fmt0) = Ok diff_a
  /\ main env0 net_no_choices fmt0 =
     (Exn (KeyError (JStr "choices")),
      [Print "Fetching PR diff..."; Http (files_request env0);
       Print "Sending to GLM..."; Http (glm_request env0 diff_a)]).
Proof.
  split; [reflexivity |]. split; [reflexivity |].
  destruct (ask_glm_faults_without_content env0 net_no_choices fmt0 diff_a
              200%Z (Some review_error) eq_refl) as [e [_ [K Mn]]].
  - intros v E. injection E as <-. reflexivity.
  - rewrite (K _ eq_refl eq_refl) in Mn. apply Mn; [reflexivity | discriminate].
Defined.

(** ** CommentPoster *)

Lemma substring_all (s : string) : substring 0 (String.length s) s = s.
Proof. induction s as [| c s IH]; simpl; [| rewrite IH]; reflexivity. Qed.

Lemma substring_append (p s : string) :
  substring (String.length p) (String.length s) (p ++ s) = s.
Proof. induction p as [| c p IH]; simpl; [apply substring_all | exact IH]. Qed.

(** C3: for every review text [m], the one comment [post_comment_to_pr]
    submits has the body "## 🤖 GLM Code Review Bot\n\n" followed by [m]
    itself: the header is a prefix of the body, and what follows the
    header is [m], whole and unchanged. *)
Theorem comment_body_verbatim
  (env : config) (net : request -> outcome) (format_obj : json -> string)
  (m : string) :
  exists (r : request) (text : string),
    snd (post_comment_to_pr env net format_obj (JStr m)) = [Http r]
    /\ req_json r = Some (JObj [("body", JStr text)])
    /\ text = "## 🤖 GLM Code Review Bot" ++ LF ++ LF ++ m
    /\ String.prefix ("## 🤖 GLM Code Review Bot" ++ LF ++ LF) text = true
    /\ substring (String.length ("## 🤖 GLM Code Review Bot" ++ LF ++ LF))
                 (String.length m) text = m.
Proof.
  exists (comment_request env format_obj (JStr m)), (comment_header ++ m).
  split; [apply post_comment_trace |]. split; [reflexivity |].
  split; [reflexivity |]. split.
  - exact (prefix_append comment_header m).
  - exact (substring_append comment_header m).
Qed.

(** C6: [post_comment_to_pr] hands to [requests.post] the comments
    endpoint of the pull request, the token headers, and the JSON body
    whose text is the title "## 🤖 GLM Code Review Bot", a blank line and
    the message; that request is the one event of the call. *)
Theorem post_comment_request
  (env : config) (net : request -> outcome) (format_obj : json -> string)
  (message : json) :
  snd (post_comment_to_pr env net format_obj message) =
  [Http {| req_method := POST;
           req_url := "https://api.github.com/repos/" ++ fmt_env (REPO env)
                      ++ "/issues/" ++ fmt_env (PR_NUMBER env) ++ "/comments";
           req_headers :=
             [("Authorization", "token " ++ fmt_env (GH_PAT env));
              ("Accept", "application/vnd.github.v3+json")];
           req_json :=
             Some (JObj [("body",
                          JStr ("## 🤖 GLM Code Review Bot" ++ LF ++ LF
                                ++ fstr format_obj message))]) |}].
Proof.
  rewrite post_comment_to_pr_eq. unfold send.
  destruct (net (comment_request env format_obj message)); reflexivity.
Qed.

(** The body is not "## Review Bot\n\n{message}": on the message "LGTM"
    the text submitted is another one. *)
Lemma post_comment_title_counterexample :
  ~ (exists r : request,
        snd (post_comment_to_pr env0 net0 fmt0 (JStr "LGTM")) = [Http r]
        /\ req_json r =
           Some (JObj [("body", JStr ("## Review Bot" ++ LF ++ LF ++ "LGTM"))])).
Proof.
  intros [r [H J]]. vm_compute in H. injection H as <-.
  vm_compute in J. discriminate J.
Qed.

(** C7: whatever response the comment request gets, [post_comment_to_pr]
    returns normally after that one request, and the program goes on to
    its last line and ends without a fault. *)
Theorem post_comment_ignores_response
  (env : config) (net : request -> outcome) (format_obj : json -> string)
  (message : json) (resp : response) :
  net (comment_request env format_obj message) = Responds resp ->
  post_comment_to_pr env net format_obj message =
    (Ok tt, [Http (comment_request env format_obj message)])
  /\ (forall d : string,
         fst (get_pr_diff env net format_obj) = Ok d -> d <> "" ->
         fst (ask_glm env net d) = Ok message ->
         main env net format_obj =
         (Ok tt, [Print "Fetching PR diff..."; Http (files_request env);
                  Print "Sending to GLM..."; Http (glm_request env d);
                  Print "Posting comment to GitHub...";
                  Http (comment_request env format_obj message);
                  Print "Done!"])).
Proof.
  intros R.
  pose proof (post_comment_responds env net format_obj message resp R) as P.
  split; [exact P |].
  intros d D N A. rewrite (main_post env net format_obj d message D N A), P.
  reflexivity.
Qed.

Lemma post_comment_ignores_response_witness :
  net_post_refused (comment_request env0 fmt0 (JStr "LGTM")) = forbidden
  /\ main env0 net_post_refused fmt0 =
     (Ok tt, [Print "Fetching PR diff..."; Http (files_request env0);
              Print "Sending to GLM..."; Http (glm_request env0 diff_a);
              Print "Posting comment to GitHub...";
              Http (comment_request env0 fmt0 (JStr "LGTM"));
              Print "Done!"]).
Proof.
  split; [reflexivity |].
  apply (proj2 (post_comment_ignores_response env0 net_post_refused fmt0
                  (JStr "LGTM") {| status_code := 403; body := None |}
                  eq_refl) diff_a);
    [reflexivity | discriminate | reflexivity].
Defined.

(** ** The main block *)

Lemma files_is_no_llm_call (env : config) :
  is_llm_call (Http (files_request env)) = false.
Proof. reflexivity. Qed.

Lemma files_is_no_comment_call (env : config) :
  is_comment_call env (Http (files_request env)) = false.
Proof. reflexivity. Qed.

Ltac classify :=
  unfold calls; cbn [filter in_order existsb];
  rewrite ?glm_is_llm_call, ?glm_is_no_comment_call,
    ?comment_is_comment_call, ?comment_is_no_llm_call,
    ?files_is_no_llm_call, ?files_is_no_comment_call;
  cbn [is_llm_call is_comment_call orb List.length].

(** C1: when [get_pr_diff] returns the empty string, the run holds no
    call to the model and no call to the comments endpoint, and prints
    the "no diff" line.  When it returns a non-empty string, the model is
    called once; if [ask_glm] returns, the comment is then posted, once
    and after the call to the model; if [ask_glm] raises, no comment is
    posted. *)
Theorem main_control_flow
  (env : config) (net : request -> outcome) (format_obj : json -> string)
  (d : string) :
  fst (get_pr_diff env net format_obj) = Ok d ->
  let t := snd (main env net format_obj) in
  (d = "" ->
   calls is_llm_call t = 0%nat
   /\ calls (is_comment_call env) t = 0%nat
   /\ In (Print "No diff found or diff is too large.") t)
  /\ (d <> "" ->
      calls is_llm_call t = 1%nat
      /\ (forall m : json,
             fst (ask_glm env net d) = Ok m ->
             calls (is_comment_call env) t = 1%nat
             /\ in_order is_llm_call (is_comment_call env) t = true)
      /\ (forall e : exn,
             fst (ask_glm env net d) = Exn e ->
             calls (is_comment_call env) t = 0%nat)).
Proof.
  intros D t. subst t. split.
  - intros ->. rewrite (main_empty env net format_obj D).
    cbn [snd]. split; [| split].
    + classify. reflexivity.
    + classify. reflexivity.
    + right. right. left. reflexivity.
  - intros N. split; [| split].
    + destruct (fst (ask_glm env net d)) as [m | e] eqn:A.
      * rewrite (main_post env net format_obj d m D N A).
        destruct (fst (post_comment_to_pr env net format_obj m));
          cbn [snd]; classify; reflexivity.
      * rewrite (main_review_fault env net format_obj d e D N A).
        cbn [snd]. classify. reflexivity.
    + intros m A. rewrite (main_post env net format_obj d m D N A).
      destruct (fst (post_comment_to_pr env net format_obj m));
        cbn [snd]; split; classify; reflexivity.
    + intros e A. rewrite (main_review_fault env net format_obj d e D N A).
      cbn [snd]. classify. reflexivity.
Qed.

Lemma main_control_flow_witness :
  fst (get_pr_diff env0 net0 fmt0) = Ok diff_a
  /\ fst (ask_glm env0 net0 diff_a) = Ok (JStr "LGTM")
  /\ calls is_llm_call (snd (main env0 net0 fmt0)) = 1%nat
  /\ calls (is_comment_call env0) (snd (main env0 net0 fmt0)) = 1%nat
  /\ in_order is_llm_call (is_comment_call env0) (snd (main env0 net0 fmt0))
     = true.
Proof.
  split; [reflexivity |]. split; [reflexivity |].
  assert (N : diff_a <> "") by discriminate.
  destruct (proj2 (main_control_flow env0 net0 fmt0 diff_a eq_refl) N)
    as [L [P _]].
  split; [exact L |]. exact (P (JStr "LGTM") eq_refl).
Defined.

(** A non-empty diff does not make both calls happen: when the answer of
    the model has no [choices], the run stops before the comment. *)
Lemma main_calls_both_counterexample :
  ~ (forall d : string,
        fst (get_pr_diff env0 net_no_choices fmt0) = Ok d -> d <> "" ->
        in_order is_llm_call (is_comment_call env0)
                 (snd (main env0 net_no_choices fmt0)) = true
        /\ calls (is_comment_call env0)
                 (snd (main env0 net_no_choices fmt0)) = 1%nat).
Proof.
  intros H.
  assert (N : diff_a <> "") by discriminate.
  destruct (H diff_a eq_refl N) as [_ K].
  vm_compute in K. discriminate K.
Qed.

(** C8: a run that ends without a fault has printed four fixed lines
    when the diff is non-empty (the three progress lines, then "Done!"),
    and two lines when it is empty (the first progress line, then the
    "no diff" line). *)
Theorem console_output
  (env : config) (net : request -> outcome) (format_obj : json -> string) :
  fst (main env net format_obj) = Ok tt ->
  exists d : string,
    fst (get_pr_diff env net format_obj) = Ok d
    /\ printed (snd (main env net format_obj)) =
       if String.eqb d ""
       then ["Fetching PR diff..."; "No diff found or diff is too large."]
       else ["Fetching PR diff..."; "Sending to GLM...";
             "Posting comment to GitHub..."; "Done!"].
Proof.
  intros H.
  destruct (fst (get_pr_diff env net format_obj)) as [d | e] eqn:D.
  - exists d. split; [reflexivity |].
    destruct (String.eqb_spec d "") as [-> | N].
    + rewrite (main_empty env net format_obj D). reflexivity.
    + destruct (fst (ask_glm env net d)) as [m | e] eqn:A.
      * rewrite (main_post env net format_obj d m D N A) in H |- *.
        destruct (fst (post_comment_to_pr env net format_obj m));
          [reflexivity | discriminate H].
      * rewrite (main_review_fault env net format_obj d e D N A) in H.
        discriminate H.
  - rewrite (main_fetch_fault env net format_obj e D) in H. discriminate H.
Qed.

Lemma console_output_witness :
  fst (main env0 net0 fmt0) = Ok tt
  /\ printed (snd (main env0 net0 fmt0)) =
     ["Fetching PR diff..."; "Sending to GLM...";
      "Posting comment to GitHub..."; "Done!"].
Proof.
  split; [reflexivity |].
  destruct (console_output env0 net0 fmt0 eq_refl) as [d [D P]].
  vm_compute in D. injection D as <-. exact P.
Defined.

(** The console does not hold one line on an empty diff, nor three on a
    non-empty one. *)
Lemma console_output_counterexample :
  (fst (main env0 net_no_patch fmt0) = Ok tt
   /\ fst (get_pr_diff env0 net_no_patch fmt0) = Ok ""
   /\ List.length (printed (snd (main env0 net_no_patch fmt0))) <> 1%nat)
  /\ (fst (main env0 net0 fmt0) = Ok tt
      /\ fst (get_pr_diff env0 net0 fmt0) = Ok diff_a
      /\ List.length (printed (snd (main env0 net0 fmt0))) <> 3%nat).
Proof.
  repeat split; vm_compute; discriminate.
Qed.

(** * Further properties of the script *)

(** ** [get_pr_diff] on answers that are no list of file records *)

Lemma py_chars_cons (c : ascii) (s : string) :
  exists (h : string) (t : list string), py_chars (String c s) = h :: t.
Proof.
  simpl. destruct s as [| c' s']; [eauto |].
  destruct (py_chars (String c' s')) as [| h t]; [eauto |].
  destruct (is_cont c'); eauto.
Qed.

(** X1: the body of the file-list answer is used as it comes.  An object
    with at least one key (the error answers of the hosting API) and a
    non-empty string are iterated into strings, on which [.get] raises
    [AttributeError]; an empty object and an empty string give the empty
    diff, and the program reports "no diff"; [null], a bool and a number
    are not iterable, [TypeError]. *)
Theorem get_pr_diff_not_a_list
  (env : config) (net : request -> outcome) (format_obj : json -> string)
  (st : Z) (v : json) :
  net (files_request env) =
    Responds {| status_code := st; body := Some v |} ->
  (forall (k : string) (x : json) (o : list (string * json)),
      v = JObj ((k, x) :: o) ->
      main env net format_obj =
      (Exn AttributeError,
       [Print "Fetching PR diff..."; Http (files_request env)]))
  /\ (forall (c : ascii) (s : string),
         v = JStr (String c s) ->
         main env net format_obj =
         (Exn AttributeError,
          [Print "Fetching PR diff..."; Http (files_request env)]))
  /\ (v = JObj [] \/ v = JStr "" \/ v = JArr [] ->
      main env net format_obj =
      (Ok tt, [Print "Fetching PR diff..."; Http (files_request env);
               Print "No diff found or diff is too large."]))
  /\ (v = JNull \/ (exists b : bool, v = JBool b)
      \/ (exists z : Z, v = JInt z) \/ (exists f : spec_float, v = JFloat f) ->
      main env net format_obj =
      (Exn TypeError,
       [Print "Fetching PR diff..."; Http (files_request env)])).
Proof.
  intros R.
  pose proof (get_pr_diff_json env net format_obj st v R) as E.
  repeat split.
  - intros k x o ->. apply main_fetch_fault. rewrite E. reflexivity.
  - intros c s ->. apply main_fetch_fault. rewrite E. cbn [py_iter bindR fst].
    destruct (py_chars_cons c s) as [h [t ->]]. reflexivity.
  - intros [-> | [-> | ->]]; apply main_empty; rewrite E; reflexivity.
  - intros [-> | [[b ->] | [[z ->] | [f ->]]]];
      apply main_fetch_fault; rewrite E; reflexivity.
Qed.

Lemma get_pr_diff_not_a_list_witness :
  net_api_error (files_request env0) = replies api_error
  /\ main env0 net_api_error fmt0 =
     (Exn AttributeError,
      [Print "Fetching PR diff..."; Http (files_request env0)]).
Proof.
  split; [reflexivity |].
  exact (proj1 (get_pr_diff_not_a_list env0 net_api_error fmt0 200%Z api_error
                  eq_refl) _ _ _ eq_refl).
Defined.

(** X2: a fault of the first request is not caught.  When [requests.get]
    raises, or when the body of its answer is no JSON, [get_pr_diff]
    raises after that one request and the program ends there: it has
    printed its first line only and has called neither the model nor the
    comments endpoint. *)
Theorem get_pr_diff_fault_ends_run
  (env : config) (net : request -> outcome) (format_obj : json -> string)
  (e : exn) :
  net (files_request env) = Raised e
  \/ (e = JSONDecodeError
      /\ exists st : Z,
           net (files_request env) =
           Responds {| status_code := st; body := None |}) ->
  get_pr_diff env net format_obj = (Exn e, [Http (files_request env)])
  /\ main env net format_obj =
     (Exn e, [Print "Fetching PR diff..."; Http (files_request env)])
  /\ calls is_llm_call (snd (main env net format_obj)) = 0%nat
  /\ calls (is_comment_call env) (snd (main env net format_obj)) = 0%nat.
Proof.
  intros H.
  assert (E : get_pr_diff env net format_obj =
              (Exn e, [Http (files_request env)])).
  { rewrite get_pr_diff_eq.
    destruct H as [R | [-> [st R]]].
    - rewrite (send_raised net _ e R). reflexivity.
    - rewrite (send_responds net _ _ R). reflexivity. }
  assert (Mn : main env net format_obj =
               (Exn e, [Print "Fetching PR diff..."; Http (files_request env)])).
  { apply main_fetch_fault. rewrite E. reflexivity. }
  split; [exact E |]. split; [exact Mn |]. rewrite Mn. split; reflexivity.
Qed.

Lemma get_pr_diff_fault_ends_run_witness :
  net_down (files_request env0) = Raised RequestException
  /\ main env0 net_down fmt0 =
     (Exn RequestException,
      [Print "Fetching PR diff..."; Http (files_request env0)]).
Proof.
  split; [reflexivity |].
  exact (proj1 (proj2 (get_pr_diff_fault_ends_run env0 net_down fmt0
                         RequestException (or_introl eq_refl)))).
Defined.

(** X3: an entry of the file list that is no dict ([null], a string, a
    number, a list) has no [.get]: when the entries before it went
    through, [get_pr_diff] raises [AttributeError], whatever follows. *)
Theorem get_pr_diff_entry_not_a_dict
  (env : config) (net : request -> outcome) (format_obj : json -> string)
  (st : Z) (pre post : list json) (x : json) :
  (forall o : list (string * json), x <> JObj o) ->
  forallb well_formed_file pre = true ->
  net (files_request env) =
    Responds {| status_code := st; body := Some (JArr (pre ++ x :: post)) |} ->
  get_pr_diff env net format_obj =
    (Exn AttributeError, [Http (files_request env)])
  /\ main env net format_obj =
     (Exn AttributeError,
      [Print "Fetching PR diff..."; Http (files_request env)]).
Proof.
  intros N W R.
  assert (E : get_pr_diff env net format_obj =
              (Exn AttributeError, [Http (files_request env)])).
  { rewrite (get_pr_diff_list env net format_obj st _ R), for_files_app,
      (for_files_well_formed format_obj pre "" W).
    simpl. destruct x as [| | | | | | o]; try reflexivity.
    contradiction (N o eq_refl). }
  split; [exact E |]. apply main_fetch_fault. rewrite E. reflexivity.
Qed.

Lemma get_pr_diff_entry_not_a_dict_witness :
  forallb well_formed_file [file_b] = true
  /\ get_pr_diff env0 net_bad_entry fmt0 =
     (Exn AttributeError, [Http (files_request env0)]).
Proof.
  split; [reflexivity |].
  refine (proj1 (get_pr_diff_entry_not_a_dict env0 net_bad_entry fmt0 200%Z
                   [file_b] [file_a] JNull _ eq_refl eq_refl)).
  intros o H. discriminate H.
Defined.

(** X4: the test of the loop is the truth value of the patch, whatever
    its type: a patch that is [null], [false], [0], a zero float, an empty
    list or an empty object is skipped like a missing one, without a
    fault, even in a record that has no file name. *)
Theorem get_pr_diff_skips_falsy_patch
  (env : config) (net : request -> outcome) (format_obj : json -> string)
  (o : list (string * json)) (p : json) :
  lookup "patch" o = Some p ->
  p = JNull \/ p = JBool false \/ p = JInt 0
  \/ (exists s : bool, p = JFloat (S754_zero s))
  \/ p = JArr [] \/ p = JObj [] ->
  (forall acc : string, add_file format_obj acc (JObj o) = Ok acc)
  /\ (forall (st : Z) (pre post : list json),
         net (files_request env) =
           Responds {| status_code := st;
                       body := Some (JArr (pre ++ JObj o :: post)) |} ->
         get_pr_diff env net format_obj =
         (for_files format_obj (pre ++ post) "", [Http (files_request env)])).
Proof.
  intros P H.
  assert (Q : qualifies (JObj o) = false).
  { unfold qualifies. rewrite P.
    destruct H as [-> | [-> | [-> | [[s ->] | [-> | ->]]]]]; reflexivity. }
  split.
  - intros acc. exact (add_file_skip format_obj acc o Q).
  - intros st pre post R.
    rewrite (get_pr_diff_list env net format_obj st _ R), !for_files_app.
    destruct (for_files format_obj pre "") as [d | e]; [| reflexivity].
    simpl. rewrite (add_file_skip format_obj d o Q). reflexivity.
Qed.

Lemma get_pr_diff_skips_falsy_patch_witness :
  lookup "patch" [("filename", JStr "c.png"); ("patch", JNull)] = Some JNull
  /\ get_pr_diff env0 net_null_patch fmt0 =
     (Ok diff_a, [Http (files_request env0)]).
Proof.
  split; [reflexivity |].
  exact (proj2 (get_pr_diff_skips_falsy_patch env0 net_null_patch fmt0
                  [("filename", JStr "c.png"); ("patch", JNull)] JNull
                  eq_refl (or_introl eq_refl))
               200%Z [file_a] [] eq_refl).
Defined.

(** ** When the diff is empty *)

Lemma file_section_starts (format_obj : json -> string) (file : json) :
  well_formed_file file = true -> qualifies file = true ->
  exists s : string, file_section format_obj file = String "F" s.
Proof.
  destruct file as [| | | | | | o]; try discriminate.
  unfold well_formed_file. intros W Q. rewrite Q in W.
  unfold file_section. unfold qualifies in Q.
  destruct (lookup "filename" o) as [name |]; [| discriminate].
  destruct (lookup "patch" o) as [p |]; [| discriminate].
  eexists. reflexivity.
Qed.

Lemma diff_bundle_no_qualifying (format_obj : json -> string)
  (files : list json) :
  existsb qualifies files = false -> diff_bundle format_obj files = "".
Proof.
  induction files as [| file files IH]; [reflexivity |].
  simpl. intros H. apply orb_false_iff in H as [Q H].
  rewrite diff_bundle_cons, Q. exact (IH H).
Qed.

Lemma diff_bundle_some_qualifying (format_obj : json -> string)
  (files : list json) :
  forallb well_formed_file files = true ->
  existsb qualifies files = true ->
  diff_bundle format_obj files <> "".
Proof.
  induction files as [| file files IH]; [discriminate |].
  simpl. intros W H. apply andb_true_iff in W as [Wf W].
  rewrite diff_bundle_cons.
  destruct (qualifies file) eqn:Q.
  - destruct (file_section_starts format_obj file Wf Q) as [s ->].
    discriminate.
  - simpl in H. exact (IH W H).
Qed.

Lemma main_llm_once
  (env : config) (net : request -> outcome) (format_obj : json -> string)
  (d : string) :
  fst (get_pr_diff env net format_obj) = Ok d -> d <> "" ->
  calls is_llm_call (snd (main env net format_obj)) = 1%nat.
Proof.
  intros D N.
  destruct (fst (ask_glm env net d)) as [m | e] eqn:A.
  - rewrite (main_post env net format_obj d m D N A).
    destruct (fst (post_comment_to_pr env net format_obj m));
      cbn [snd]; classify; reflexivity.
  - rewrite (main_review_fault env net format_obj d e D N A).
    cbn [snd]. classify. reflexivity.
Qed.

(** X5: on a list of file records that the loop goes through, the diff
    is empty exactly when no record has a non-empty patch.  Then the
    program prints "no diff" and stops after its one request; as soon as
    one record qualifies the diff is non-empty and the model is called. *)
Theorem empty_diff_iff_no_patch
  (env : config) (net : request -> outcome) (format_obj : json -> string)
  (st : Z) (files : list json) :
  forallb well_formed_file files = true ->
  net (files_request env) =
    Responds {| status_code := st; body := Some (JArr files) |} ->
  (fst (get_pr_diff env net format_obj) = Ok ""
   <-> existsb qualifies files = false)
  /\ (existsb qualifies files = false ->
      main env net format_obj =
      (Ok tt, [Print "Fetching PR diff..."; Http (files_request env);
               Print "No diff found or diff is too large."]))
  /\ (existsb qualifies files = true ->
      calls is_llm_call (snd (main env net format_obj)) = 1%nat).
Proof.
  intros W R.
  assert (E : fst (get_pr_diff env net format_obj) =
              Ok (diff_bundle format_obj files)).
  { rewrite (get_pr_diff_list env net format_obj st files R),
      (for_files_well_formed format_obj files "" W). reflexivity. }
  split; [| split].
  - rewrite E. split.
    + intros H. injection H as H.
      destruct (existsb qualifies files) eqn:Q; [| reflexivity].
      contradiction (diff_bundle_some_qualifying format_obj files W Q H).
    + intros Q. rewrite (diff_bundle_no_qualifying format_obj files Q).
      reflexivity.
  - intros Q. apply main_empty.
    rewrite E, (diff_bundle_no_qualifying format_obj files Q). reflexivity.
  - intros Q. apply (main_llm_once env net format_obj _ E).
    exact (diff_bundle_some_qualifying format_obj files W Q).
Qed.

Lemma empty_diff_iff_no_patch_witness :
  forallb well_formed_file [file_b] = true
  /\ existsb qualifies [file_b] = false
  /\ main env0 net_no_patch fmt0 =
     (Ok tt, [Print "Fetching PR diff..."; Http (files_request env0);
              Print "No diff found or diff is too large."]).
Proof.
  split; [reflexivity |]. split; [reflexivity |].
  exact (proj1 (proj2 (empty_diff_iff_no_patch env0 net_no_patch fmt0 200%Z
                         [file_b] eq_refl eq_refl)) eq_refl).
Defined.

(** ** [ask_glm] *)

(** X6: when the answer of the model holds the path
    [choices[0].message.content], [ask_glm] returns what is at its end,
    after its one request, whatever the status code of the answer and
    whatever else the answer holds (other keys, further choices). *)
Theorem ask_glm_returns_content
  (env : config) (net : request -> outcome)
  (d : string) (st : Z) (o c m : list (string * json))
  (rest : list json) (x : json) :
  net (glm_request env d) =
    Responds {| status_code := st; body := Some (JObj o) |} ->
  lookup "choices" o = Some (JArr (JObj c :: rest)) ->
  lookup "message" c = Some (JObj m) ->
  lookup "content" m = Some x ->
  ask_glm env net d = (Ok x, [Http (glm_request env d)]).
Proof.
  intros R Hc Hm Hx. rewrite (ask_glm_json env net d st _ R).
  unfold first_choice_content. cbn [subscript_str]. rewrite Hc.
  cbn [bindR]. rewrite subscript_int_first. cbn [bindR subscript_str].
  rewrite Hm. cbn [bindR subscript_str]. rewrite Hx. reflexivity.
Qed.

Lemma ask_glm_returns_content_witness :
  net_review_500 (glm_request env0 diff_a) =
    Responds {| status_code := 500; body := Some review_ok |}
  /\ ask_glm env0 net_review_500 diff_a =
     (Ok (JStr "LGTM"), [Http (glm_request env0 diff_a)]).
Proof.
  split; [reflexivity |].
  exact (ask_glm_returns_content env0 net_review_500 diff_a 500%Z
           [("choices",
             JArr [JObj [("message", JObj [("role", JStr "assistant");
                                           ("content", JStr "LGTM")])]])]
           [("message", JObj [("role", JStr "assistant");
                              ("content", JStr "LGTM")])]
           [("role", JStr "assistant"); ("content", JStr "LGTM")]
           [] (JStr "LGTM") eq_refl eq_refl eq_refl eq_refl).
Defined.

(** X7: the fault of [ask_glm] tells which step of the path is missing
    in an answer that is an object: [KeyError('choices')] without the
    key, [IndexError] on an empty list of choices, [KeyError('message')]
    and [KeyError('content')] when the first choice or its message is an
    object without the key. *)
Theorem ask_glm_fault_kinds
  (env : config) (net : request -> outcome)
  (d : string) (st : Z) (o : list (string * json)) :
  net (glm_request env d) =
    Responds {| status_code := st; body := Some (JObj o) |} ->
  (lookup "choices" o = None ->
   fst (ask_glm env net d) = Exn (KeyError (JStr "choices")))
  /\ (lookup "choices" o = Some (JArr []) ->
      fst (ask_glm env net d) = Exn IndexError)
  /\ (forall (c : list (string * json)) (rest : list json),
         lookup "choices" o = Some (JArr (JObj c :: rest)) ->
         (lookup "message" c = None ->
          fst (ask_glm env net d) = Exn (KeyError (JStr "message")))
         /\ (forall m : list (string * json),
                lookup "message" c = Some (JObj m) ->
                lookup "content" m = None ->
                fst (ask_glm env net d) = Exn (KeyError (JStr "content")))).
Proof.
  intros R. rewrite (ask_glm_json env net d st _ R).
  unfold first_choice_content. cbn [fst subscript_str].
  split; [| split].
  - intros ->. reflexivity.
  - intros ->. reflexivity.
  - intros c rest ->. cbn [bindR]. rewrite subscript_int_first.
    cbn [bindR subscript_str]. split.
    + intros ->. reflexivity.
    + intros m -> Hx. cbn [bindR subscript_str]. rewrite Hx. reflexivity.
Qed.

Lemma ask_glm_fault_kinds_witness :
  net_empty_choices (glm_request env0 diff_a) =
    replies (JObj [("choices", JArr [])])
  /\ fst (ask_glm env0 net_empty_choices diff_a) = Exn IndexError.
Proof.
  split; [reflexivity |].
  exact (proj1 (proj2 (ask_glm_fault_kinds env0 net_empty_choices diff_a 200%Z
                         [("choices", JArr [])] eq_refl)) eq_refl).
Defined.

(** X8: whatever the network does, a call of [ask_glm] causes exactly
    one event, a POST to the chat-completion endpoint with the bearer
    key, the model "glm-4.7" and one user message; the text of the
    message is the fixed instruction, a blank line and the diff, which
    is its suffix, whole. *)
Theorem ask_glm_request
  (env : config) (net : request -> outcome) (d : string) :
  exists text : string,
    snd (ask_glm env net d) =
    [Http {| req_method := POST;
             req_url := "https://api.z.ai/api/coding/paas/v4/chat/completions";
             req_headers :=
               [("Authorization", "Bearer " ++ fmt_env (ZHIPU_API_KEY env));
                ("Content-Type", "application/json")];
             req_json :=
               Some (JObj [("model", JStr "glm-4.7");
                           ("messages",
                            JArr [JObj [("role", JStr "user");
                                        ("content", JStr text)]])]) |}]
    /\ text = review_prompt ++ d
    /\ substring (String.length review_prompt) (String.length d) text = d.
Proof.
  exists (review_prompt ++ d). split; [| split].
  - exact (ask_glm_trace env net d).
  - reflexivity.
  - exact (substring_append review_prompt d).
Qed.

(** ** [post_comment_to_pr] when there is no response *)

(** X9: the response of the comment request is dropped, an exception of
    [requests.post] is not.  When the call raises there is no response
    to drop: [post_comment_to_pr] raises the same exception, the program
    ends in it, and "Done!" is never printed. *)
Theorem post_comment_exception_propagates
  (env : config) (net : request -> outcome) (format_obj : json -> string)
  (d : string) (message : json) (e : exn) :
  fst (get_pr_diff env net format_obj) = Ok d -> d <> "" ->
  fst (ask_glm env net d) = Ok message ->
  net (comment_request env format_obj message) = Raised e ->
  post_comment_to_pr env net format_obj message =
    (Exn e, [Http (comment_request env format_obj message)])
  /\ main env net format_obj =
     (Exn e, [Print "Fetching PR diff..."; Http (files_request env);
              Print "Sending to GLM..."; Http (glm_request env d);
              Print "Posting comment to GitHub...";
              Http (comment_request env format_obj message)])
  /\ ~ In "Done!" (printed (snd (main env net format_obj))).
Proof.
  intros D N A R.
  pose proof (post_comment_raised env net format_obj message e R) as P.
  assert (Mn : main env net format_obj =
               (Exn e, [Print "Fetching PR diff..."; Http (files_request env);
                        Print "Sending to GLM..."; Http (glm_request env d);
                        Print "Posting comment to GitHub...";
                        Http (comment_request env format_obj message)])).
  { rewrite (main_post env net format_obj d message D N A), P. reflexivity. }
  split; [exact P |]. split; [exact Mn |].
  rewrite Mn. cbn [snd printed].
  intros [H | [H | [H | []]]]; discriminate H.
Qed.

Lemma post_comment_exception_propagates_witness :
  fst (get_pr_diff env0 net_post_down fmt0) = Ok diff_a
  /\ fst (ask_glm env0 net_post_down diff_a) = Ok (JStr "LGTM")
  /\ fst (main env0 net_post_down fmt0) = Exn RequestException.
Proof.
  split; [reflexivity |]. split; [reflexivity |].
  assert (N : diff_a <> "") by discriminate.
  rewrite (proj1 (proj2 (post_comment_exception_propagates
                           env0 net_post_down fmt0 diff_a (JStr "LGTM")
                           RequestException eq_refl N eq_refl eq_refl))).
  reflexivity.
Defined.

(** ** Every run *)

(** The five shapes a run of the main block can have. *)
Lemma main_shapes
  (env : config) (net : request -> outcome) (format_obj : json -> string) :
  let t := snd (main env net format_obj) in
  let f := files_request env in
  t = [Print "Fetching PR diff..."; Http f]
  \/ t = [Print "Fetching PR diff..."; Http f;
          Print "No diff found or diff is too large."]
  \/ (exists d : string,
         t = [Print "Fetching PR diff..."; Http f;
              Print "Sending to GLM..."; Http (glm_request env d)])
  \/ (exists (d : string) (m : json),
         t = [Print "Fetching PR diff..."; Http f;
              Print "Sending to GLM..."; Http (glm_request env d);
              Print "Posting comment to GitHub...";
              Http (comment_request env format_obj m)])
  \/ (exists (d : string) (m : json),
         t = [Print "Fetching PR diff..."; Http f;
              Print "Sending to GLM..."; Http (glm_request env d);
              Print "Posting comment to GitHub...";
              Http (comment_request env format_obj m);
              Print "Done!"]).
Proof.
  intros t f. subst t f.
  destruct (fst (get_pr_diff env net format_obj)) as [d | e] eqn:D.
  - destruct (String.eqb_spec d "") as [-> | N].
    + right. left. rewrite (main_empty env net format_obj D). reflexivity.
    + destruct (fst (ask_glm env net d)) as [m | e] eqn:A.
      * rewrite (main_post env net format_obj d m D N A).
        destruct (fst (post_comment_to_pr env net format_obj m)).
        -- right. right. right. right. exists d, m. reflexivity.
        -- right. right. right. left. exists d, m. reflexivity.
      * right. right. left. exists d.
        rewrite (main_review_fault env net format_obj d e D N A). reflexivity.
  - left. rewrite (main_fetch_fault env net format_obj e D). reflexivity.
Qed.

Lemma glm_url_not_comments_url (env : config) : glm_url <> comments_url env.
Proof. intros H. discriminate H. Qed.

Lemma files_request_not_glm (env : config) (d : string) :
  Http (files_request env) <> Http (glm_request env d).
Proof. intros H. discriminate H. Qed.

Lemma files_request_not_comment
  (env : config) (format_obj : json -> string) (m : json) :
  Http (files_request env) <> Http (comment_request env format_obj m).
Proof. intros H. discriminate H. Qed.

Lemma glm_request_not_comment
  (env : config) (format_obj : json -> string) (d : string) (m : json) :
  Http (glm_request env d) <> Http (comment_request env format_obj m).
Proof.
  intros H.
  apply (f_equal (fun e => match e with Http r => req_url r | Print _ => "" end))
    in H.
  exact (glm_url_not_comments_url env H).
Qed.

Ltac distinct :=
  repeat (apply NoDup_cons;
          [ cbn [In]; intuition (try discriminate);
            match goal with
            | H : Http (comment_request _ _ _) = Http (glm_request _ _) |- _ =>
                exact (glm_request_not_comment _ _ _ _ (eq_sym H))
            end
          | ]);
  apply NoDup_nil.

(** X10: what holds of every run, faults included.  It starts with the
    first progress line and the request for the files; it calls the
    model at most once and posts at most one comment, never without a
    call to the model before it; and no event occurs twice, so no
    request is ever sent again. *)
Theorem main_run_invariants
  (env : config) (net : request -> outcome) (format_obj : json -> string) :
  let t := snd (main env net format_obj) in
  (exists rest : list event,
      t = Print "Fetching PR diff..." :: Http (files_request env) :: rest)
  /\ (calls is_llm_call t <= 1)%nat
  /\ (calls (is_comment_call env) t <= calls is_llm_call t)%nat
  /\ (calls (is_comment_call env) t = 1%nat ->
      in_order is_llm_call (is_comment_call env) t = true)
  /\ NoDup t.
Proof.
  intros t. subst t.
  destruct (main_shapes env net format_obj)
    as [H | [H | [[d H] | [[d [m H]] | [d [m H]]]]]];
    rewrite H; (split; [eexists; reflexivity |]);
    (split; [classify; repeat constructor |]);
    (split; [classify; repeat constructor |]);
    (split; [classify; try discriminate; reflexivity |]);
    distinct.
Qed.

(** X11: no status code is read.  Two networks whose answers to the
    file request, and to the model request, have the same bodies give
    [get_pr_diff] and [ask_glm] the same result and the same events,
    whatever the status codes. *)
Theorem status_code_not_inspected
  (env : config) (net1 net2 : request -> outcome)
  (format_obj : json -> string) (d : string)
  (st1 st2 st3 st4 : Z) (b1 b2 : option json) :
  net1 (files_request env) = Responds {| status_code := st1; body := b1 |} ->
  net2 (files_request env) = Responds {| status_code := st2; body := b1 |} ->
  net1 (glm_request env d) = Responds {| status_code := st3; body := b2 |} ->
  net2 (glm_request env d) = Responds {| status_code := st4; body := b2 |} ->
  get_pr_diff env net1 format_obj = get_pr_diff env net2 format_obj
  /\ ask_glm env net1 d = ask_glm env net2 d.
Proof.
  intros F1 F2 G1 G2. split.
  - rewrite !get_pr_diff_eq, (send_responds net1 _ _ F1),
      (send_responds net2 _ _ F2). reflexivity.
  - rewrite !ask_glm_eq, (send_responds net1 _ _ G1),
      (send_responds net2 _ _ G2). reflexivity.
Qed.

Lemma status_code_not_inspected_witness :
  net0 (glm_request env0 diff_a) = replies review_ok
  /\ net_review_500 (glm_request env0 diff_a) =
     Responds {| status_code := 500; body := Some review_ok |}
  /\ ask_glm env0 net0 diff_a = ask_glm env0 net_review_500 diff_a.
Proof.
  split; [reflexivity |]. split; [reflexivity |].
  exact (proj2 (status_code_not_inspected env0 net0 net_review_500 fmt0 diff_a
                  200%Z 200%Z 200%Z 500%Z _ _
                  eq_refl eq_refl eq_refl eq_refl)).
Defined.

(** ** The three calls together *)

Lemma first_choice_content_path (o c m : list (string * json))
  (rest : list json) (x : json) :
  lookup "choices" o = Some (JArr (JObj c :: rest)) ->
  lookup "message" c = Some (JObj m) ->
  lookup "content" m = Some x ->
  first_choice_content (JObj o) = Ok x.
Proof.
  intros Hc Hm Hx. unfold first_choice_content. cbn [subscript_str].
  rewrite Hc. cbn [bindR]. rewrite subscript_int_first.
  cbn [bindR subscript_str]. rewrite Hm. cbn [bindR subscript_str].
  rewrite Hx. reflexivity.
Qed.

(** X12: a whole review.  When the file list goes through the loop and
    some file has a patch, the model is sent the bundle of the list,
    and when its answer has the content path and the comment request
    gets a response, the comment carries that content: the run is one
    GET, one POST to the model, one POST to the comments endpoint, in
    that order, between the four printed lines, and ends without fault. *)
Theorem review_end_to_end
  (env : config) (net : request -> outcome) (format_obj : json -> string)
  (st1 st2 : Z) (files : list json) (o c m : list (string * json))
  (rest : list json) (x : json) (resp : response) :
  net (files_request env) =
    Responds {| status_code := st1; body := Some (JArr files) |} ->
  forallb well_formed_file files = true ->
  existsb qualifies files = true ->
  net (glm_request env (diff_bundle format_obj files)) =
    Responds {| status_code := st2; body := Some (JObj o) |} ->
  lookup "choices" o = Some (JArr (JObj c :: rest)) ->
  lookup "message" c = Some (JObj m) ->
  lookup "content" m = Some x ->
  net (comment_request env format_obj x) = Responds resp ->
  main env net format_obj =
  (Ok tt, [Print "Fetching PR diff..."; Http (files_request env);
           Print "Sending to GLM...";
           Http (glm_request env (diff_bundle format_obj files));
           Print "Posting comment to GitHub...";
           Http (comment_request env format_obj x);
           Print "Done!"]).
Proof.
  intros R W Q RG Hc Hm Hx RC.
  assert (D : fst (get_pr_diff env net format_obj) =
              Ok (diff_bundle format_obj files)).
  { rewrite (get_pr_diff_list env net format_obj st1 files R),
      (for_files_well_formed format_obj files "" W). reflexivity. }
  assert (A : fst (ask_glm env net (diff_bundle format_obj files)) = Ok x).
  { rewrite (ask_glm_json env net _ st2 _ RG),
      (first_choice_content_path o c m rest x Hc Hm Hx). reflexivity. }
  rewrite (main_post env net format_obj _ x D
             (diff_bundle_some_qualifying format_obj files W Q) A),
    (post_comment_responds env net format_obj x resp RC).
  reflexivity.
Qed.

Lemma review_end_to_end_witness :
  forallb well_formed_file [file_a; file_b] = true
  /\ existsb qualifies [file_a; file_b] = true
  /\ diff_bundle fmt0 [file_a; file_b] = diff_a
  /\ main env0 net0 fmt0 =
     (Ok tt, [Print "Fetching PR diff..."; Http (files_request env0);
              Print "Sending to GLM..."; Http (glm_request env0 diff_a);
              Print "Posting comment to GitHub...";
              Http (comment_request env0 fmt0 (JStr "LGTM"));
              Print "Done!"]).
Proof.
  split; [reflexivity |]. split; [reflexivity |]. split; [reflexivity |].
  exact (review_end_to_end env0 net0 fmt0 200%Z 200%Z [file_a; file_b]
           [("choices",
             JArr [JObj [("message", JObj [("role", JStr "assistant");
                                           ("content", JStr "LGTM")])]])]
           [("message", JObj [("role", JStr "assistant");
                              ("content", JStr "LGTM")])]
           [("role", JStr "assistant"); ("content", JStr "LGTM")]
           [] (JStr "LGTM") {| status_code := 201;
                               body := Some (JObj [("id", JInt 1)]) |}
           eq_refl eq_refl eq_refl eq_refl eq_refl eq_refl eq_refl eq_refl).
Defined.

(** ** The environment *)

(** X13: no variable of the environment is checked.  Whatever they are,
    and whatever the network does, [get_pr_diff] causes exactly one
    event, a GET of the files endpoint with the token header and no
    body; a variable that is not set is written "None", so that with
    none set the request goes to ".../repos/None/pulls/None/files" with
    the header "token None". *)
Theorem get_pr_diff_request
  (env : config) (net : request -> outcome) (format_obj : json -> string) :
  snd (get_pr_diff env net format_obj) =
  [Http {| req_method := GET;
           req_url := "https://api.github.com/repos/" ++ fmt_env (REPO env)
                      ++ "/pulls/" ++ fmt_env (PR_NUMBER env) ++ "/files";
           req_headers :=
             [("Authorization", "token " ++ fmt_env (GH_PAT env));
              ("Accept", "application/vnd.github.v3+json")];
           req_json := None |}]
  /\ (REPO env = None -> PR_NUMBER env = None -> GH_PAT env = None ->
      snd (get_pr_diff env net format_obj) =
      [Http {| req_method := GET;
               req_url := "https://api.github.com/repos/None/pulls/None/files";
               req_headers :=
                 [("Authorization", "token None");
                  ("Accept", "application/vnd.github.v3+json")];
               req_json := None |}]).
Proof.
  pose proof (get_pr_diff_trace env net format_obj) as T.
  split; [exact T |].
  intros R P G. rewrite T. unfold files_request. rewrite R, P, G. reflexivity.
Qed.

Lemma get_pr_diff_request_witness :
  REPO env_unset = None
  /\ snd (get_pr_diff env_unset net0 fmt0) =
     [Http {| req_method := GET;
              req_url := "https://api.github.com/repos/None/pulls/None/files";
              req_headers :=
                [("Authorization", "token None");
                 ("Accept", "application/vnd.github.v3+json")];
              req_json := None |}].
Proof.
  split; [reflexivity |].
  exact (proj2 (get_pr_diff_request env_unset net0 fmt0)
               eq_refl eq_refl eq_refl).
Defined.
